(** * Domain-randomisation core of [ungraspable.robosuite_env.base_env.BaseEnv]

    A shallow embedding of the parameter-sampling and scene-configuration
    code of [BaseEnv] ([__init__], [init_box_size], [_load_model],
    [_load_robots]) together with the properties its specification states.

    Conventions.
    - Python floats are idealised as exact rationals in canonical form
      ([Qc]), so that equality of values is Leibniz equality; rounding is
      outside the model.
    - [numpy.random] is a global generator; it is threaded explicitly as a
      [RandomState] through a small state-and-exception monad.
    - The density bounds are floats like every other bound;
      [numpy.random.randint] truncates them with [int()] before it draws. *)

From Stdlib Require Import QArith Qcanon Qround Lqa.
From stdpp Require Import base numbers strings list gmap.

Local Open Scope Qc_scope.

(* ===================================================================== *)
(** * Python values                                                        *)
(* ===================================================================== *)

(** Entries of a controller-configuration dictionary.  Only numeric entries
    are written by the code under study; everything else is kept opaque. *)
Inductive pyval : Type :=
  | PyFloat (q : Qc)
  | PyOther (repr : string).

(** Exceptions the modelled code can raise. *)
Inductive exn : Type :=
  | ValueError (msg : string)
  | AttributeError (msg : string).

Inductive result (A : Type) : Type :=
  | Ok (a : A)
  | Raise (e : exn).
Arguments Ok {A} a.
Arguments Raise {A} e.

Definition is_ok {A} (r : result A) : bool :=
  match r with Ok _ => true | Raise _ => false end.

(** A length-3 [numpy] array of floats ([table_friction], [table_offset],
    [table_full_size], [gripper_friction], a box's [size]; the docstring
    types all of them as 3-tuples). *)
Record ndarray3 : Type := Array3 { item0 : Qc; item1 : Qc; item2 : Qc }.

(** [a[0] = v] *)
Definition setitem0 (v : Qc) (a : ndarray3) : ndarray3 :=
  Array3 v (item1 a) (item2 a).
(** [a[2] = v] *)
Definition setitem2 (v : Qc) (a : ndarray3) : ndarray3 :=
  Array3 (item0 a) (item1 a) v.

(* ===================================================================== *)
(** * numpy.random                                                         *)
(* ===================================================================== *)

Module np_random.

(** The generator state: an unbounded supply of raw words and the read
    position in it. Each primitive draw consumes one word. *)
Record RandomState : Type := { words : nat → N; cursor : nat }.

Definition advance (g : RandomState) : RandomState :=
  {| words := words g; cursor := S (cursor g) |}.

Definition peek (g : RandomState) : N := words g (cursor g).

(** Computations that read the generator and may raise. *)
Definition M (A : Type) : Type := RandomState → result (A * RandomState).

Definition ret {A} (a : A) : M A := λ g, Ok (a, g).

Definition bind {A B} (c : M A) (k : A → M B) : M B :=
  λ g, match c g with
       | Ok (a, g') => k a g'
       | Raise e => Raise e
       end.

Definition raise {A} (e : exn) : M A := λ _, Raise e.

(** [random_sample()]: a 53-bit integer scaled into [[0, 1)]. *)
Definition random_sample_of (w : N) : Qc :=
  Q2Qc (Z.of_N (w mod 2 ^ 53) # 2 ^ 53).

(** [uniform(low, high)] is [low + (high - low) * random_sample()].
    No comparison of [low] with [high] is made. *)
Definition uniform_of (low high : Qc) (w : N) : Qc :=
  low + (high - low) * random_sample_of w.

Definition uniform (low high : Qc) : M Qc :=
  λ g, Ok (uniform_of low high (peek g), advance g).

(** [int(x)] of a float: truncation towards zero. *)
Definition py_int (x : Qc) : Z :=
  if Qle_bool 0%Q x then Qfloor x else Qceiling x.

(** The bounds of the default integer type of [randint], [int64]. *)
Definition int64_min : Z := (- 2 ^ 63)%Z.
Definition int64_max : Z := (2 ^ 63 - 1)%Z.

(** An integer of [[low, high)], for integers [low < high]. *)
Definition randint_of (low high : Z) (w : N) : Z :=
  (low + Z.of_N w mod (high - low))%Z.

(** [randint(low, high)] for scalar bounds and the default integer type
    ([int64] on the platforms of the simulator): both bounds are truncated
    with [int()], one is taken off the upper one, and the closed interval
    is checked against the integer type and for emptiness before the
    draw. *)
Definition randint (low high : Qc) : M Z :=
  λ g, let lo := py_int low in
       let hi := (py_int high - 1)%Z in
       if decide (lo < int64_min)%Z
       then Raise (ValueError "low is out of bounds for int64")
       else if decide (int64_max < hi)%Z
       then Raise (ValueError "high is out of bounds for int64")
       else if decide (hi < lo)%Z
       then Raise (ValueError "low >= high")
       else Ok (randint_of lo (hi + 1) (peek g), advance g).

(** The bounds on which [randint] draws. *)
Definition randint_admits (low high : Qc) : Prop :=
  (int64_min ≤ py_int low)%Z
  ∧ (py_int high - 1 ≤ int64_max)%Z
  ∧ (py_int low ≤ py_int high - 1)%Z.

(** [choice(a)] for a one-dimensional sequence [a]: the element at a
    uniformly drawn index; raises on an empty sequence. *)
Definition choice_of {A} (d : A) (a : list A) (w : N) : A :=
  nth (N.to_nat (w mod N.of_nat (length a))) a d.

Definition choice {A} (a : list A) : M A :=
  λ g, match a with
       | [] => Raise (ValueError "'a' cannot be empty unless no samples are taken")
       | d :: _ => Ok (choice_of d a (peek g), advance g)
       end.

End np_random.
Import np_random.

Notation "'let*' x ':=' c 'in' k" := (bind c (λ x, k))
  (at level 10, x name, c at level 200, k at level 200).

(* ===================================================================== *)
(** * Simulation-backend objects                                           *)
(* ===================================================================== *)

(** [robosuite.utils.mjcf_utils.CustomMaterial] (identity only). *)
Record CustomMaterial : Type := {
  texture : string;
  tex_name : string;
  mat_name : string;
}.

(** [robosuite.models.objects.BoxObject]. *)
Record BoxObject : Type := {
  box_name : string;
  size : ndarray3;
  material : CustomMaterial;
  density : Qc;
}.

(** The constructor of [BoxObject] with [size=None]: every component of
    [size] is drawn with [uniform(size_min[i], size_max[i])]. *)
Definition BoxObject_new (name : string) (size_min size_max : ndarray3)
    (mat : CustomMaterial) (dens : Qc) : M BoxObject :=
  let* s0 := uniform (item0 size_min) (item0 size_max) in
  let* s1 := uniform (item1 size_min) (item1 size_max) in
  let* s2 := uniform (item2 size_min) (item2 size_max) in
  ret {| box_name := name; size := Array3 s0 s1 s2;
         material := mat; density := dens |}.

(** [robosuite.utils.placement_samplers.UniformRandomSampler]: the
    arguments it is constructed with. *)
Record UniformRandomSampler : Type := {
  sampler_name : string;
  mujoco_objects : BoxObject;
  x_range : Qc * Qc;
  y_range : Qc * Qc;
  rotation : Qc;
  ensure_object_boundary_in_range : bool;
  ensure_valid_placement : bool;
  reference_pos : ndarray3;
  z_offset : Qc;
}.

(** [ungraspable.robosuite_env.bin_arena.BinArena]: constructor arguments. *)
Record BinArena : Type := {
  bin_pos : ndarray3;
  bin_full_size : ndarray3;
  bin_friction : ndarray3;
  hidden_walls : string;
}.

(** Modelled from the spec: the class [SingleArm] of
    [ungraspable.robosuite_env.single_arm] is not part of the sources at
    hand. The robot collaborator "accepts gripper friction vector ... at
    robot-load time" and "accepts controller max-translation/max-rotation
    overrides if the controller configuration declares those fields": the
    constructed robot stores the friction vector and its own copy of the
    controller configuration. *)
Record SingleArm : Type := {
  idn : nat;
  control_gripper : bool;
  gripper_friction : ndarray3;
  controller_config : gmap string pyval;
}.

(** [robosuite.models.tasks.ManipulationTask]. *)
Record ManipulationTask : Type := {
  mujoco_arena : BinArena;
  mujoco_robots : SingleArm;
  task_objects : BoxObject;
}.

(* ===================================================================== *)
(** * The environment                                                      *)
(* ===================================================================== *)

(** The attributes of [BaseEnv] read or written by the randomisation code.
    [robot_configs] stands for [robot_configs[0]["controller_config"]] and
    [robots] for [robots[0]] ([None] until a robot has been loaded). *)
Record BaseEnv : Type := {
  table_full_size : ndarray3;
  table_friction : ndarray3;
  table_offset : ndarray3;
  placement_initializer : option UniformRandomSampler;
  object_initial_pose_y_min : Qc;
  object_initial_pose_y_max : Qc;
  table_offset_x_min : Qc;
  table_offset_x_max : Qc;
  table_offset_z_min : Qc;
  table_offset_z_max : Qc;
  use_random_occlusion : bool;
  occlusion_type : string;
  object_size_x_min : Qc;
  object_size_x_max : Qc;
  object_size_x_val : Qc;
  object_size_y_min : Qc;
  object_size_y_max : Qc;
  object_size_y_val : Qc;
  object_size_z_min : Qc;
  object_size_z_max : Qc;
  object_size_z_val : Qc;
  object_to_wall_dist_min : Qc;
  object_to_wall_dist_max : Qc;
  object_density_min : Qc;
  object_density_max : Qc;
  object_density_val : Qc;
  table_friction_min : Qc;
  table_friction_max : Qc;
  table_friction_val : Qc;
  gripper_friction_min : Qc;
  gripper_friction_max : Qc;
  gripper_friction_val : Qc;
  controller_max_translation_max : Qc;
  controller_max_translation_min : Qc;
  controller_max_rotation_max : Qc;
  controller_max_rotation_min : Qc;
  robot_configs : gmap string pyval;
  robots : option SingleArm;
  cube : option BoxObject;
  model : option ManipulationTask;
}.

(** [BaseEnv_eta self] spells [self] out attribute by attribute; the
    attribute assignments below are obtained from it. *)
Definition BaseEnv_eta (self : BaseEnv) : BaseEnv :=
  {| table_full_size := table_full_size self;
     table_friction := table_friction self;
     table_offset := table_offset self;
     placement_initializer := placement_initializer self;
     object_initial_pose_y_min := object_initial_pose_y_min self;
     object_initial_pose_y_max := object_initial_pose_y_max self;
     table_offset_x_min := table_offset_x_min self;
     table_offset_x_max := table_offset_x_max self;
     table_offset_z_min := table_offset_z_min self;
     table_offset_z_max := table_offset_z_max self;
     use_random_occlusion := use_random_occlusion self;
     occlusion_type := occlusion_type self;
     object_size_x_min := object_size_x_min self;
     object_size_x_max := object_size_x_max self;
     object_size_x_val := object_size_x_val self;
     object_size_y_min := object_size_y_min self;
     object_size_y_max := object_size_y_max self;
     object_size_y_val := object_size_y_val self;
     object_size_z_min := object_size_z_min self;
     object_size_z_max := object_size_z_max self;
     object_size_z_val := object_size_z_val self;
     object_to_wall_dist_min := object_to_wall_dist_min self;
     object_to_wall_dist_max := object_to_wall_dist_max self;
     object_density_min := object_density_min self;
     object_density_max := object_density_max self;
     object_density_val := object_density_val self;
     table_friction_min := table_friction_min self;
     table_friction_max := table_friction_max self;
     table_friction_val := table_friction_val self;
     gripper_friction_min := gripper_friction_min self;
     gripper_friction_max := gripper_friction_max self;
     gripper_friction_val := gripper_friction_val self;
     controller_max_translation_max := controller_max_translation_max self;
     controller_max_translation_min := controller_max_translation_min self;
     controller_max_rotation_max := controller_max_rotation_max self;
     controller_max_rotation_min := controller_max_rotation_min self;
     robot_configs := robot_configs self;
     robots := robots self;
     cube := cube self;
     model := model self |}.

(** [assign proj] builds the function [λ v self, self'] where [self'] is
    [self] with the attribute [proj] replaced by [v] and every other
    attribute kept. *)
Ltac assign proj :=
  let v := fresh "v" in
  let self := fresh "self" in
  intros v self;
  let whole := eval cbv beta delta [BaseEnv_eta] in (BaseEnv_eta self) in
  match eval pattern (proj self) in whole with
  | ?ctx _ => let updated := eval cbv beta in (ctx v) in exact updated
  end.

(** [self.occlusion_type = v] *)
Definition set_occlusion_type : string → BaseEnv → BaseEnv.
Proof. assign occlusion_type. Defined.

(** [self.object_size_x_min = v] *)
Definition set_object_size_x_min : Qc → BaseEnv → BaseEnv.
Proof. assign object_size_x_min. Defined.

(** [self.object_size_x_max = v] *)
Definition set_object_size_x_max : Qc → BaseEnv → BaseEnv.
Proof. assign object_size_x_max. Defined.

(** [self.object_size_x_val = v] *)
Definition set_object_size_x_val : Qc → BaseEnv → BaseEnv.
Proof. assign object_size_x_val. Defined.

(** [self.object_size_y_min = v] *)
Definition set_object_size_y_min : Qc → BaseEnv → BaseEnv.
Proof. assign object_size_y_min. Defined.

(** [self.object_size_y_max = v] *)
Definition set_object_size_y_max : Qc → BaseEnv → BaseEnv.
Proof. assign object_size_y_max. Defined.

(** [self.object_size_y_val = v] *)
Definition set_object_size_y_val : Qc → BaseEnv → BaseEnv.
Proof. assign object_size_y_val. Defined.

(** [self.object_size_z_min = v] *)
Definition set_object_size_z_min : Qc → BaseEnv → BaseEnv.
Proof. assign object_size_z_min. Defined.

(** [self.object_size_z_max = v] *)
Definition set_object_size_z_max : Qc → BaseEnv → BaseEnv.
Proof. assign object_size_z_max. Defined.

(** [self.object_size_z_val = v] *)
Definition set_object_size_z_val : Qc → BaseEnv → BaseEnv.
Proof. assign object_size_z_val. Defined.

(** [self.object_to_wall_dist_min = v] *)
Definition set_object_to_wall_dist_min : Qc → BaseEnv → BaseEnv.
Proof. assign object_to_wall_dist_min. Defined.

(** [self.object_to_wall_dist_max = v] *)
Definition set_object_to_wall_dist_max : Qc → BaseEnv → BaseEnv.
Proof. assign object_to_wall_dist_max. Defined.

(** [self.table_friction_val = v] *)
Definition set_table_friction_val : Qc → BaseEnv → BaseEnv.
Proof. assign table_friction_val. Defined.

(** [self.table_friction = v] *)
Definition set_table_friction : ndarray3 → BaseEnv → BaseEnv.
Proof. assign table_friction. Defined.

(** [self.table_offset = v] *)
Definition set_table_offset : ndarray3 → BaseEnv → BaseEnv.
Proof. assign table_offset. Defined.

(** [self.object_density_val = v] *)
Definition set_object_density_val : Qc → BaseEnv → BaseEnv.
Proof. assign object_density_val. Defined.

(** [self.gripper_friction_val = v] *)
Definition set_gripper_friction_val : Qc → BaseEnv → BaseEnv.
Proof. assign gripper_friction_val. Defined.

(** [self.robots = v] *)
Definition set_robots : option SingleArm → BaseEnv → BaseEnv.
Proof. assign robots. Defined.

(** [self.cube = v] *)
Definition set_cube : option BoxObject → BaseEnv → BaseEnv.
Proof. assign cube. Defined.

(** [self.placement_initializer = v] *)
Definition set_placement_initializer : option UniformRandomSampler → BaseEnv → BaseEnv.
Proof. assign placement_initializer. Defined.

(** [self.model = v] *)
Definition set_model : option ManipulationTask → BaseEnv → BaseEnv.
Proof. assign model. Defined.

(** [self.table_friction_min = v] (assigned from outside the class) *)
Definition set_table_friction_min : Qc → BaseEnv → BaseEnv.
Proof. assign table_friction_min. Defined.

(** [self.object_density_min = v] (assigned from outside the class) *)
Definition set_object_density_min : Qc → BaseEnv → BaseEnv.
Proof. assign object_density_min. Defined.

(** [self.object_density_max = v] (assigned from outside the class) *)
Definition set_object_density_max : Qc → BaseEnv → BaseEnv.
Proof. assign object_density_max. Defined.

(** [self.table_friction_max = v] (assigned from outside the class) *)
Definition set_table_friction_max : Qc → BaseEnv → BaseEnv.
Proof. assign table_friction_max. Defined.

(** ** [init_box_size] (lines 258-287) *)

Definition init_box_size (self : BaseEnv) : BaseEnv :=
  if decide (occlusion_type self = "ground") then
    let self := set_object_size_x_min (Q2Qc 0.15) self in
    let self := set_object_size_x_max (Q2Qc 0.15) self in
    let self := set_object_size_x_val (Q2Qc 0.15) self in
    let self := set_object_size_y_min (Q2Qc 0.20) self in
    let self := set_object_size_y_max (Q2Qc 0.20) self in
    let self := set_object_size_y_val (Q2Qc 0.20) self in
    let self := set_object_size_z_min (Q2Qc 0.05) self in
    let self := set_object_size_z_max (Q2Qc 0.05) self in
    let self := set_object_size_z_val (Q2Qc 0.05) self in
    let self := set_object_to_wall_dist_min (Q2Qc 0) self in
    let self := set_object_to_wall_dist_max (Q2Qc 0) self in
    self
  else
    let self := set_object_size_x_min (Q2Qc 0.06) self in
    let self := set_object_size_x_max (Q2Qc 0.06) self in
    let self := set_object_size_x_val (Q2Qc 0.06) self in
    let self := set_object_size_y_min (Q2Qc 0.20) self in
    let self := set_object_size_y_max (Q2Qc 0.20) self in
    let self := set_object_size_y_val (Q2Qc 0.20) self in
    let self := set_object_size_z_min (Q2Qc 0.06) self in
    let self := set_object_size_z_max (Q2Qc 0.06) self in
    let self := set_object_size_z_val (Q2Qc 0.06) self in
    if decide (occlusion_type self = "side") then
      let self := set_object_to_wall_dist_min (Q2Qc 0) self in
      let self := set_object_to_wall_dist_max (Q2Qc 0) self in
      self
    else
      let self := set_object_to_wall_dist_min (Q2Qc 0.05) self in
      let self := set_object_to_wall_dist_max (Q2Qc 0.1) self in
      self.

(** ** [__init__] (lines 182-231)

    The attribute assignments of the constructor. [init_box_size] reads
    only [occlusion_type] and is the only writer of the size and wall
    distance attributes, so it is applied to the record of all other
    assignments; the zeros it receives for its own attributes are
    overwritten. The closing [super().__init__(...)] belongs to robosuite:
    it records [controller_configs] under [robot_configs] and runs the first
    load of the model, which is [_load_model] below. *)
Definition __init__
    (controller_configs : gmap string pyval)
    (occlusion_type : string) (use_random_occlusion : bool)
    (table_full_size table_friction table_offset : ndarray3)
    (placement_initializer : option UniformRandomSampler) : BaseEnv :=
  init_box_size
    {| table_full_size := table_full_size;
       table_friction := table_friction;
       table_offset := table_offset;
       placement_initializer := placement_initializer;
       object_initial_pose_y_min := Q2Qc 0;
       object_initial_pose_y_max := Q2Qc 0;
       table_offset_x_min := Q2Qc 0.5;
       table_offset_x_max := Q2Qc 0.5;
       table_offset_z_min := Q2Qc 0.065;
       table_offset_z_max := Q2Qc 0.065;
       use_random_occlusion := use_random_occlusion;
       occlusion_type := occlusion_type;
       object_size_x_min := Q2Qc 0; object_size_x_max := Q2Qc 0;
       object_size_x_val := Q2Qc 0;
       object_size_y_min := Q2Qc 0; object_size_y_max := Q2Qc 0;
       object_size_y_val := Q2Qc 0;
       object_size_z_min := Q2Qc 0; object_size_z_max := Q2Qc 0;
       object_size_z_val := Q2Qc 0;
       object_to_wall_dist_min := Q2Qc 0; object_to_wall_dist_max := Q2Qc 0;
       object_density_min := Q2Qc 86;
       object_density_max := Q2Qc 86;
       object_density_val := Q2Qc 86;
       table_friction_min := Q2Qc 0.3;
       table_friction_max := Q2Qc 0.3;
       table_friction_val := Q2Qc 0.3;
       gripper_friction_min := Q2Qc 3;
       gripper_friction_max := Q2Qc 3;
       gripper_friction_val := Q2Qc 3;
       controller_max_translation_max := Q2Qc 0.03;
       controller_max_translation_min := Q2Qc 0.03;
       controller_max_rotation_max := Q2Qc 0.2;
       controller_max_rotation_min := Q2Qc 0.2;
       robot_configs := controller_configs;
       robots := None;
       cube := None;
       model := None |}.

(** The default keyword arguments of [__init__]. *)
Definition default_table_full_size : ndarray3 :=
  Array3 (Q2Qc 0.45) (Q2Qc 0.54) (Q2Qc 0.107).
Definition default_table_friction : ndarray3 :=
  Array3 (Q2Qc 0.3) (Q2Qc 0.005) (Q2Qc 0.0001).
Definition default_table_offset : ndarray3 :=
  Array3 (Q2Qc 0.5) (Q2Qc 0) (Q2Qc 0.065).

(** ** [_load_robots] (lines 452-459) *)

(** Modelled from the spec: the constructor of [SingleArm] (see the record
    above) keeps the friction vector and copies the controller
    configuration it is given. *)
Definition SingleArm_new (idn : nat) (control_gripper : bool)
    (gripper_friction : ndarray3) (controller_config : gmap string pyval)
    : SingleArm :=
  {| idn := idn; control_gripper := control_gripper;
     gripper_friction := gripper_friction;
     controller_config := controller_config |}.

Definition _load_robots (self : BaseEnv) : M BaseEnv :=
  let gripper_friction := Array3 (Q2Qc 3) (Q2Qc 0.015) (Q2Qc 0.0003) in
  let* v := uniform (gripper_friction_min self) (gripper_friction_max self) in
  let self := set_gripper_friction_val v self in
  let gripper_friction :=
    setitem0 (gripper_friction_val self) gripper_friction in
  let self :=
    set_robots
      (Some (SingleArm_new 0 false gripper_friction (robot_configs self)))
      self in
  (* self.robots[0].load_model() builds the robot's own model and leaves
     the attributes above as they are *)
  ret self.

(** ** [_load_model] (lines 289-383) *)

(** [key in d] for a dictionary [d]. *)
Definition py_in (key : string) (d : gmap string pyval) : bool :=
  match d !! key with Some _ => true | None => false end.

(** [robot.controller_config[key] = v] *)
Definition setitem_controller_config (key : string) (v : pyval)
    (robot : SingleArm) : SingleArm :=
  {| idn := idn robot; control_gripper := control_gripper robot;
     gripper_friction := gripper_friction robot;
     controller_config := <[key := v]> (controller_config robot) |}.

(** [self.robots[0]] *)
Definition robots_0 (self : BaseEnv) : M SingleArm :=
  match robots self with
  | Some robot => ret robot
  | None => raise (AttributeError "'NoneType' object has no attribute 'controller_config'")
  end.

Definition _load_model (self : BaseEnv) : M BaseEnv :=
  (* super()._load_model(): the robot environment of robosuite loads the
     robots through self._load_robots() *)
  let* self := _load_robots self in
  let* self :=
    if use_random_occlusion self then
      let* t := choice ["ground"; "side"; "none"] in
      ret (set_occlusion_type t self)
    else ret self in
  let self := init_box_size self in
  let* robot := robots_0 self in
  let* robot :=
    if py_in "max_translation" (controller_config robot) then
      let* v := uniform (controller_max_translation_min self)
                        (controller_max_translation_max self) in
      ret (setitem_controller_config "max_translation" (PyFloat v) robot)
    else ret robot in
  let* robot :=
    if py_in "max_rotation" (controller_config robot) then
      let* v := uniform (controller_max_rotation_min self)
                        (controller_max_rotation_max self) in
      ret (setitem_controller_config "max_rotation" (PyFloat v) robot)
    else ret robot in
  let self := set_robots (Some robot) self in
  (* load model for table top workspace *)
  let* v := uniform (table_friction_min self) (table_friction_max self) in
  let self := set_table_friction_val v self in
  let self :=
    set_table_friction
      (setitem0 (table_friction_val self) (table_friction self)) self in
  let* v := uniform (table_offset_x_min self) (table_offset_x_max self) in
  let self := set_table_offset (setitem0 v (table_offset self)) self in
  let* v := uniform (table_offset_z_min self) (table_offset_z_max self) in
  let self := set_table_offset (setitem2 v (table_offset self)) self in
  let mujoco_arena :=
    {| bin_pos := table_offset self;
       bin_full_size := table_full_size self;
       bin_friction := table_friction self;
       hidden_walls := "" |} in
  (* initialize objects of interest *)
  let obj_texture :=
    if decide (occlusion_type self = "ground") then
      {| texture := "WoodRed"; tex_name := "redwood";
         mat_name := "redwood_mat" |}
    else
      {| texture := "WoodBlue"; tex_name := "bluewood";
         mat_name := "bluewood_mat" |} in
  let* v := uniform (object_size_x_min self) (object_size_x_max self) in
  let self := set_object_size_x_val v self in
  let* v := uniform (object_size_y_min self) (object_size_y_max self) in
  let self := set_object_size_y_val v self in
  let* v := uniform (object_size_z_min self) (object_size_z_max self) in
  let self := set_object_size_z_val v self in
  let* v := randint (object_density_min self)
                    (object_density_max self + 1) in
  let self := set_object_density_val (Qc_of_Z v) self in
  let half_size :=
    Array3 (object_size_x_val self / Q2Qc 2)
           (object_size_y_val self / Q2Qc 2)
           (object_size_z_val self / Q2Qc 2) in
  let* box := BoxObject_new "cube" half_size half_size obj_texture
                            (object_density_val self) in
  let self := set_cube (Some box) self in
  (* Create placement initializer *)
  let xpos_max := item0 (table_full_size self) / Q2Qc 2 - item0 (size box) in
  let self :=
    set_placement_initializer
      (Some {| sampler_name := "ObjectSampler";
               mujoco_objects := box;
               x_range := (xpos_max - object_to_wall_dist_max self,
                           xpos_max - object_to_wall_dist_min self);
               y_range := (object_initial_pose_y_min self,
                           object_initial_pose_y_max self);
               rotation := Q2Qc 0;
               ensure_object_boundary_in_range := false;
               ensure_valid_placement := false;
               reference_pos := table_offset self;
               z_offset := Q2Qc 0 |})
      self in
  (* task includes arena, robot, and objects of interest *)
  let self :=
    set_model
      (Some {| mujoco_arena := mujoco_arena;
               mujoco_robots := robot;
               task_objects := box |})
      self in
  ret self.

(** A generator for concrete runs: the [n]-th raw word is [f n]. *)
Definition seeded (f : nat → N) : RandomState := {| words := f; cursor := 0 |}.

(* ===================================================================== *)
(** * Observables and reset                                                *)
(* ===================================================================== *)

(** The simulation data the environment reads and writes: body positions
    and orientations by body id, joint positions by joint name. *)
Record MjData : Type := {
  body_xpos : nat → list Qc;
  body_xquat : nat → list Qc;
  qpos : gmap string (list Qc);
}.

(** [sim.data.set_joint_qpos(name, value)] *)
Definition set_joint_qpos (name : string) (value : list Qc) (d : MjData)
    : MjData :=
  {| body_xpos := body_xpos d; body_xquat := body_xquat d;
     qpos := <[name := value]> (qpos d) |}.

(** The attributes of [BaseEnv] that the observation and reset code reads;
    they are independent of the attributes of the loaders above. *)
Record BaseEnvSim : Type := {
  use_object_obs : bool;
  control_freq : Qc;
  cube_body_id : nat;
  deterministic_reset : bool;
  sim_data : MjData;
}.

(** A sensor: the two closures of [_setup_observables], or one inherited
    from the parent class. *)
Inductive sensor : Type :=
  | cube_pos
  | cube_quat
  | inherited_sensor (sensor_name : string).

(** The modality the [@sensor] decorator attaches to the two closures. *)
Definition sensor_modality (s : sensor) : option string :=
  match s with
  | cube_pos | cube_quat => Some "object"
  | inherited_sensor _ => None
  end.

(** Calling a sensor of this class: [np.array(body_xpos[cube_body_id])],
    respectively [body_xquat]. *)
Definition read_sensor (self : BaseEnvSim) (s : sensor) : option (list Qc) :=
  match s with
  | cube_pos => Some (body_xpos (sim_data self) (cube_body_id self))
  | cube_quat => Some (body_xquat (sim_data self) (cube_body_id self))
  | inherited_sensor _ => None
  end.

(** [robosuite.utils.observables.Observable]: the arguments given here. *)
Record Observable : Type := {
  obs_name : string;
  obs_sensor : sensor;
  sampling_rate : Qc;
}.

(** An [OrderedDict] with string keys: [d[k] = v] replaces the value of a
    key in place and appends a new key at the end. *)
Fixpoint od_setitem {V} (k : string) (v : V) (d : list (string * V))
    : list (string * V) :=
  match d with
  | [] => [(k, v)]
  | (k', v') :: rest =>
      if decide (k = k') then (k, v) :: rest
      else (k', v') :: od_setitem k v rest
  end.

Fixpoint od_get {V} (k : string) (d : list (string * V)) : option V :=
  match d with
  | [] => None
  | (k', v') :: rest => if decide (k = k') then Some v' else od_get k rest
  end.

(** ** [_setup_observables] (lines 396-431)

    [observables] is the dictionary returned by
    [super()._setup_observables()]. The prefix [pf] the method reads from
    the robot's model is not used afterwards. *)
Definition _setup_observables (self : BaseEnvSim)
    (observables : list (string * Observable))
    : list (string * Observable) :=
  if use_object_obs self then
    let sensors := [cube_pos; cube_quat] in
    let names := ["cube_pos"; "cube_quat"] in
    foldl (λ observables '(name, s),
             od_setitem name
               {| obs_name := name; obs_sensor := s;
                  sampling_rate := control_freq self |}
               observables)
          observables (zip names sensors)
  else observables.

(** ** [_reset_internal] (lines 436-450) *)

(** A placed object: only its joints are read. *)
Record MujocoObject : Type := {
  object_name : string;
  joints : list string;
}.

(** [obj.joints[0]]; [None] stands for the [IndexError] of an empty
    list. *)
Definition joints_0 (obj : MujocoObject) : option string :=
  head (joints obj).

(** [sim_data self] is the data left by [super()._reset_internal()], and
    [object_placements] is the sequence
    [self.placement_initializer.sample().values()] of triples
    [(obj_pos, obj_quat, obj)]; the sampler belongs to robosuite. The
    result is [None] when the loop stops on an [IndexError]. *)
Definition _reset_internal (self : BaseEnvSim)
    (object_placements : list (list Qc * list Qc * MujocoObject))
    : option MjData :=
  if negb (deterministic_reset self) then
    foldl (λ data '(obj_pos, obj_quat, obj),
             d ← data;
             j ← joints_0 obj;
             Some (set_joint_qpos j (obj_pos ++ obj_quat) d))
          (Some (sim_data self)) object_placements
  else Some (sim_data self).

(* ===================================================================== *)
(** * Auxiliary definitions                                                *)
(* ===================================================================== *)

(** The values [init_box_size] installs, as functions of the occlusion
    type. *)
Definition box_size_x (t : string) : Qc :=
  if decide (t = "ground") then Q2Qc 0.15 else Q2Qc 0.06.
Definition box_size_y (t : string) : Qc := Q2Qc 0.20.
Definition box_size_z (t : string) : Qc :=
  if decide (t = "ground") then Q2Qc 0.05 else Q2Qc 0.06.
Definition wall_dist_min (t : string) : Qc :=
  if decide (t = "ground") then Q2Qc 0
  else if decide (t = "side") then Q2Qc 0 else Q2Qc 0.05.
Definition wall_dist_max (t : string) : Qc :=
  if decide (t = "ground") then Q2Qc 0
  else if decide (t = "side") then Q2Qc 0 else Q2Qc 0.1.

(** The environment built by [__init__] with its default arguments, for a
    given occlusion type and controller configuration. *)
Definition default_env (cc : gmap string pyval) (t : string) (r : bool)
    : BaseEnv :=
  __init__ cc t r default_table_full_size default_table_friction
    default_table_offset None.

(** A generator whose every raw word is [2^52]: [random_sample()] is then
    always one half. *)
Definition halves : RandomState := seeded (λ _, 2 ^ 52)%N.

(** [1] for [True], [0] for [False]. *)
Definition bool_to_nat (b : bool) : nat := if b then 1 else 0.

(** A controller configuration that declares a translation limit and no
    rotation limit. *)
Definition translation_only_config : gmap string pyval :=
  <["max_translation" := PyFloat (Q2Qc 0.03)]>
    (<["type" := PyOther "OSC_POSE"]> ∅).

(** The placement range as the specification words it: from the table
    footprint, the object's half-extent, a clearance value and the maximum
    of the clearance range. *)
Definition spec_placement_x_range
    (table_x half_extent_x clearance_value clearance_range_max : Qc)
    : Qc * Qc :=
  let xpos_max := table_x / Q2Qc 2 - half_extent_x in
  (xpos_max - clearance_range_max, xpos_max - clearance_value).

(** The list [_load_model] hands to [choice]. *)
Definition occlusion_types : list string := ["ground"; "side"; "none"].

(** The default ground environment after the assignment
    [table_friction_min = 1], which leaves [table_friction_max = 0.3]. *)
Definition inverted_friction_env : BaseEnv :=
  set_table_friction_min (Q2Qc 1) (default_env ∅ "ground" false).

(** The same environment after [object_density_min = 90] instead, which
    leaves [object_density_max = 86]. *)
Definition inverted_density_env : BaseEnv :=
  set_object_density_min (Q2Qc 90) (default_env ∅ "ground" false).



(** The same with the inverted density bounds 85.9 and 85.2. *)
Definition truncated_density_env : BaseEnv :=
  set_object_density_max (Q2Qc 85.2)
    (set_object_density_min (Q2Qc 85.9) (default_env ∅ "ground" false)).



(** The density draw of [_load_model] is admitted by [randint]. *)
Definition density_draw_ok (self : BaseEnv) : Prop :=
  randint_admits (object_density_min self) (object_density_max self + 1).

#[global] Instance randint_admits_dec (low high : Qc) :
  Decision (randint_admits low high).
Proof. unfold randint_admits. apply _. Defined.

#[global] Instance density_draw_ok_dec (self : BaseEnv) :
  Decision (density_draw_ok self).
Proof. unfold density_draw_ok. apply _. Defined.

(** Every range a load samples from is a single point. The size ranges
    are not listed: [init_box_size] installs them. *)
Definition single_point_ranges (self : BaseEnv) : Prop :=
  table_friction_min self = table_friction_max self
  ∧ table_offset_x_min self = table_offset_x_max self
  ∧ table_offset_z_min self = table_offset_z_max self
  ∧ gripper_friction_min self = gripper_friction_max self
  ∧ object_density_min self = object_density_max self
  ∧ controller_max_translation_min self = controller_max_translation_max self
  ∧ controller_max_rotation_min self = controller_max_rotation_max self.

(** A simulation side for concrete runs: object observations on, control
    frequency 20, the cube as body 1, all bodies at the origin, no joint
    position recorded. *)
Definition demo_sim : BaseEnvSim :=
  {| use_object_obs := true;
     control_freq := Q2Qc 20;
     cube_body_id := 1;
     deterministic_reset := false;
     sim_data :=
       {| body_xpos := λ _, [Q2Qc 0; Q2Qc 0; Q2Qc 0];
          body_xquat := λ _, [Q2Qc 1; Q2Qc 0; Q2Qc 0; Q2Qc 0];
          qpos := ∅ |} |}.

(** One observable as the parent class would provide it. *)
Definition demo_observables : list (string * Observable) :=
  [("robot0_joint_pos",
    {| obs_name := "robot0_joint_pos";
       obs_sensor := inherited_sensor "joint_pos";
       sampling_rate := Q2Qc 20 |})].

(** The placement of one cube with a single joint. *)
Definition demo_placements : list (list Qc * list Qc * MujocoObject) :=
  [([Q2Qc 0.5; Q2Qc 0; Q2Qc 0.1], [Q2Qc 1; Q2Qc 0; Q2Qc 0; Q2Qc 0],
    {| object_name := "cube"; joints := ["cube_joint0"] |})].

(* ===================================================================== *)
(** * Facts about the numpy primitives                                     *)
(* ===================================================================== *)

(** Equality of two closed rationals, by comparison of their fractions. *)
Ltac qc_closed := apply Qc_is_canon; reflexivity.


Lemma random_sample_of_range (w : N) :
  0 ≤ random_sample_of w ∧ random_sample_of w < 1.
Proof.
  unfold random_sample_of, Qcle, Qclt. cbn [this Q2Qc].
  rewrite !Qred_correct. unfold Qle, Qlt. cbn [Qnum Qden].
  assert (Hlt : (w mod 2 ^ 53 < 2 ^ 53)%N) by (by apply N.mod_lt).
  set (r := (w mod 2 ^ 53)%N) in *.
  change (Z.pos (2 ^ 53)) with (Z.of_N (2 ^ 53)).
  split; lia.
Qed.


(** [uniform(m, m)] is [m], whatever the generator yields. *)
Lemma uniform_of_degenerate (m : Qc) (w : N) : uniform_of m m w = m.
Proof. unfold uniform_of. ring. Qed.

(** [uniform(low, high)] with [high < low] raises nothing: it lies in
    [(high, low]]. *)
Lemma uniform_of_inverted (low high : Qc) (w : N) :
  high < low → high < uniform_of low high w ∧ uniform_of low high w ≤ low.
Proof.
  intros Hlt. unfold uniform_of.
  destruct (random_sample_of_range w) as [H0 H1].
  assert (Hd : 0 < low - high) by (apply Qclt_minus_iff in Hlt; exact Hlt).
  split.
  - apply Qclt_minus_iff.
    replace (low + (high - low) * random_sample_of w + - high)
      with ((low - high) * (1 + - random_sample_of w)) by ring.
    apply Qcmult_pos_pos; [done | apply Qclt_minus_iff in H1; exact H1].
  - apply Qcle_minus_iff.
    replace (low + - (low + (high - low) * random_sample_of w))
      with ((low - high) * random_sample_of w) by ring.
    apply Qcmult_nonneg_nonneg; [by apply Qclt_le_weak | done].
Qed.

(** ** Truncation and the integer draw *)

Lemma py_int_of_Z (z : Z) : py_int (Qc_of_Z z) = z.
Proof.
  unfold py_int, Qc_of_Z. cbn [this Q2Qc].
  rewrite Qfloor_Z, Qceiling_Z. by destruct (Qle_bool 0%Q (inject_Z z)).
Qed.

(** Truncation grows by at most one when one is added. *)
Lemma py_int_succ_le (a : Qc) : (py_int (a + 1) ≤ py_int a + 1)%Z.
Proof.
  unfold py_int.
  assert (Heq : (this (a + 1) == this a + 1)%Q) by apply Qred_correct.
  rewrite (Qleb_comp 0%Q 0%Q (Qeq_refl 0%Q) _ _ Heq).
  rewrite (Qfloor_comp _ _ Heq), (Qceiling_comp _ _ Heq).
  generalize (this a). clear a Heq. intros x.
  pose proof (Qfloor_le x) as Hf. pose proof (Qlt_floor x) as Hf'.
  pose proof (Qfloor_le (x + 1)%Q) as Hg.
  pose proof (Qlt_floor (x + 1)%Q) as Hg'.
  pose proof (Qle_ceiling x) as Hc. pose proof (Qceiling_lt x) as Hc'.
  pose proof (Qle_ceiling (x + 1)%Q) as Hd.
  pose proof (Qceiling_lt (x + 1)%Q) as Hd'.
  unfold Z.sub in *. rewrite !inject_Z_plus in *.
  change (inject_Z 1) with 1%Q in *.
  change (inject_Z (- (1))) with (- (1))%Q in *.
  generalize dependent (Qfloor x). generalize dependent (Qfloor (x + 1)%Q).
  generalize dependent (Qceiling x).
  generalize dependent (Qceiling (x + 1)%Q).
  intros cx1 ? ? cx ? ? fx1 ? ? fx ? ?.
  destruct (Qle_bool 0%Q (x + 1)%Q) eqn:E1;
    destruct (Qle_bool 0%Q x) eqn:E0;
    try apply Qle_bool_iff in E1; try apply Qle_bool_iff in E0;
    try (assert (x + 1 < 0)%Q
           by (apply Qnot_le_lt; rewrite <- Qle_bool_iff; congruence));
    try (assert (x < 0)%Q
           by (apply Qnot_le_lt; rewrite <- Qle_bool_iff; congruence));
    apply Z.lt_succ_r; rewrite Zlt_Qlt; unfold Z.succ;
    rewrite !inject_Z_plus; change (inject_Z 1) with 1%Q; lra.
Qed.

Lemma randint_run (low high : Qc) (g : RandomState) :
  randint_admits low high →
  randint low high g =
    Ok (randint_of (py_int low) (py_int high) (peek g), advance g).
Proof.
  intros (Hlo & Hhi & Hne). unfold randint. cbv zeta.
  repeat (case_decide; [lia|]). by rewrite Z.sub_add.
Qed.

Lemma randint_not_admitted (low high : Qc) (g : RandomState) :
  ¬ randint_admits low high →
  ∃ msg, randint low high g = Raise (ValueError msg).
Proof.
  intros Hno. unfold randint. cbv zeta.
  repeat (case_decide; [by eexists|]).
  destruct Hno. unfold randint_admits. lia.
Qed.

Lemma randint_of_range (low high : Z) (w : N) :
  (low < high)%Z →
  (low ≤ randint_of low high w)%Z ∧ (randint_of low high w < high)%Z.
Proof.
  intros Hlt. unfold randint_of.
  pose proof (Z.mod_pos_bound (Z.of_N w) (high - low)). lia.
Qed.

(** The draw over a single truncated point. *)
Lemma randint_of_point (m : Qc) (w : N) :
  randint_admits m (m + 1) →
  randint_of (py_int m) (py_int (m + 1)) w = py_int m.
Proof.
  intros (_ & _ & Hne). pose proof (py_int_succ_le m).
  pose proof (randint_of_range (py_int m) (py_int (m + 1)) w). lia.
Qed.

(* ===================================================================== *)
(** * Symbolic execution of the loaders                                    *)
(* ===================================================================== *)

(** Reading an attribute back through the assignments. *)
Ltac env_simpl :=
  cbn beta iota zeta delta [
    table_full_size table_friction table_offset placement_initializer
    object_initial_pose_y_min object_initial_pose_y_max table_offset_x_min
    table_offset_x_max table_offset_z_min table_offset_z_max
    use_random_occlusion occlusion_type object_size_x_min object_size_x_max
    object_size_x_val object_size_y_min object_size_y_max object_size_y_val
    object_size_z_min object_size_z_max object_size_z_val
    object_to_wall_dist_min object_to_wall_dist_max object_density_min
    object_density_max object_density_val table_friction_min
    table_friction_max table_friction_val gripper_friction_min
    gripper_friction_max gripper_friction_val
    controller_max_translation_max controller_max_translation_min
    controller_max_rotation_max controller_max_rotation_min robot_configs
    robots cube model
    set_occlusion_type set_object_size_x_min set_object_size_x_max
    set_object_size_x_val set_object_size_y_min set_object_size_y_max
    set_object_size_y_val set_object_size_z_min set_object_size_z_max
    set_object_size_z_val set_object_to_wall_dist_min
    set_object_to_wall_dist_max set_table_friction_val set_table_friction
    set_table_offset set_object_density_val set_gripper_friction_val
    set_robots set_cube set_placement_initializer set_model
    set_table_friction_min set_object_density_min set_object_density_max
    set_table_friction_max
    controller_config gripper_friction idn control_gripper SingleArm_new
    setitem_controller_config _load_model _load_robots robots_0
    BoxObject_new bind ret uniform raise choice
    item0 item1 item2 setitem0 setitem2 size density material box_name
    fst snd].

(** [init_box_size] as a chain of assignments. *)
Lemma init_box_size_unfold (self : BaseEnv) :
  let t := occlusion_type self in
  init_box_size self =
    set_object_to_wall_dist_max (wall_dist_max t)
      (set_object_to_wall_dist_min (wall_dist_min t)
        (set_object_size_z_val (box_size_z t)
          (set_object_size_z_max (box_size_z t)
            (set_object_size_z_min (box_size_z t)
              (set_object_size_y_val (box_size_y t)
                (set_object_size_y_max (box_size_y t)
                  (set_object_size_y_min (box_size_y t)
                    (set_object_size_x_val (box_size_x t)
                      (set_object_size_x_max (box_size_x t)
                        (set_object_size_x_min (box_size_x t) self)))))))))).
Proof.
  unfold init_box_size, box_size_x, box_size_y, box_size_z, wall_dist_min,
    wall_dist_max.
  env_simpl. repeat case_decide; reflexivity.
Qed.

Lemma py_in_insert_ne (k k' : string) (v : pyval) (d : gmap string pyval) :
  k ≠ k' → py_in k' (<[k := v]> d) = py_in k' d.
Proof. intros Hne. unfold py_in. by rewrite lookup_insert_ne. Qed.

Lemma py_in_true (k : string) (d : gmap string pyval) :
  py_in k d = true ↔ is_Some (d !! k).
Proof.
  unfold py_in. destruct (d !! k) as [v|]; split; intros H;
    first [done | by exists v | by destruct H].
Qed.

Lemma py_in_false (k : string) (d : gmap string pyval) :
  py_in k d = false ↔ d !! k = None.
Proof. unfold py_in. by destruct (d !! k). Qed.

(** Runs [_load_model] on symbolic input up to the density draw: one case
    per branch taken. *)
Ltac load_model_branches :=
  env_simpl;
  destruct (use_random_occlusion _) eqn:?; env_simpl;
  rewrite ?init_box_size_unfold; env_simpl;
  destruct (py_in "max_translation" _) eqn:?; env_simpl;
  rewrite ?py_in_insert_ne by done;
  destruct (py_in "max_rotation" _) eqn:?; env_simpl.

(** The runs in which the density draw is admitted ... *)
Ltac load_model_cases :=
  load_model_branches; unfold bind;
  rewrite !randint_run
    by (match goal with H : density_draw_ok _ |- _ => exact H end);
  env_simpl.

(** ... and those in which it is not. *)
Ltac load_model_raises :=
  load_model_branches; unfold bind;
  match goal with
  | H : ¬ density_draw_ok _ |- context [randint ?a ?b ?g] =>
      destruct (randint_not_admitted a b g H) as [? ->]
  end;
  env_simpl.

(** Decides the density guard of a concrete environment. *)
Ltac density_guard := vm_compute; intuition discriminate.

(** The only failure of [_load_model] is the density draw: it succeeds
    exactly when [randint] admits the density bounds. *)
Lemma _load_model_is_ok (self : BaseEnv) (g : RandomState) :
  is_ok (_load_model self g)
  = bool_decide (density_draw_ok self).
Proof.
  destruct (decide (density_draw_ok self)).
  - rewrite bool_decide_eq_true_2 by done. load_model_cases; reflexivity.
  - rewrite bool_decide_eq_false_2 by done.
    load_model_raises; reflexivity.
Qed.

(* ===================================================================== *)
(** * Placement sampler                                                    *)
(* ===================================================================== *)

(** C9. Whenever the model is loaded, the placement sampler is built with
    rotation zero, with the object-boundary flag off and with the
    valid-placement flag off. *)
Theorem placement_sampler_flags (self : BaseEnv) (g : RandomState) :
  density_draw_ok self →
  ∃ self' g' s,
    _load_model self g = Ok (self', g')
    ∧ placement_initializer self' = Some s
    ∧ rotation s = Q2Qc 0
    ∧ ensure_object_boundary_in_range s = false
    ∧ ensure_valid_placement s = false.
Proof.
  intros Hd. load_model_cases; eexists _, _, _; (split; [reflexivity|]);
    env_simpl; by repeat split.
Qed.

Lemma placement_sampler_flags_witness :
  ∃ self' g' s,
    _load_model (default_env ∅ "ground" false) halves = Ok (self', g')
    ∧ placement_initializer self' = Some s
    ∧ rotation s = Q2Qc 0
    ∧ ensure_object_boundary_in_range s = false
    ∧ ensure_valid_placement s = false.
Proof.
  apply (placement_sampler_flags (default_env ∅ "ground" false) halves).
  density_guard.
Defined.

(* ===================================================================== *)
(** * Gripper friction                                                     *)
(* ===================================================================== *)

(** C10. Loading the robot never fails and hands the robot a friction
    vector whose first component is the uniform draw between
    [gripper_friction_min] and [gripper_friction_max] and whose second and
    third components are the constants 0.015 and 0.0003, whatever the
    environment holds. *)
Theorem gripper_friction_first_component_only
    (self : BaseEnv) (g : RandomState) :
  ∃ self' robot,
    _load_robots self g = Ok (self', advance g)
    ∧ robots self' = Some robot
    ∧ gripper_friction robot =
        Array3 (uniform_of (gripper_friction_min self)
                           (gripper_friction_max self) (peek g))
               (Q2Qc 0.015) (Q2Qc 0.0003)
    ∧ gripper_friction_val self' = item0 (gripper_friction robot).
Proof. eexists _, _. env_simpl. by repeat split. Qed.

(* ===================================================================== *)
(** * Table                                                                *)
(* ===================================================================== *)

(** C8. Loading the model draws the first friction coefficient of the
    table and the x and z components of its offset, each from its own
    range; the y component of the offset and the second and third friction
    coefficients are those the environment had before, so a y offset of
    zero stays zero. *)
Theorem table_sampling_frame (self : BaseEnv) (g : RandomState) :
  density_draw_ok self →
  ∃ self' g' wf wx wz,
    _load_model self g = Ok (self', g')
    ∧ table_friction_val self' =
        uniform_of (table_friction_min self) (table_friction_max self) wf
    ∧ table_friction self' =
        Array3 (table_friction_val self')
               (item1 (table_friction self)) (item2 (table_friction self))
    ∧ table_offset self' =
        Array3 (uniform_of (table_offset_x_min self)
                           (table_offset_x_max self) wx)
               (item1 (table_offset self))
               (uniform_of (table_offset_z_min self)
                           (table_offset_z_max self) wz)
    ∧ (item1 (table_offset self) = Q2Qc 0 →
       item1 (table_offset self') = Q2Qc 0).
Proof.
  intros Hd. load_model_cases; eexists _, _, _, _, _;
    (split; [reflexivity|]); env_simpl; by repeat split.
Qed.

Lemma table_sampling_frame_witness :
  ∃ self' g',
    _load_model (default_env ∅ "side" true) halves = Ok (self', g')
    ∧ item1 (table_friction self') = Q2Qc 0.005
    ∧ item2 (table_friction self') = Q2Qc 0.0001
    ∧ item1 (table_offset self') = Q2Qc 0.
Proof.
  destruct (table_sampling_frame (default_env ∅ "side" true) halves)
    as (self' & g' & wf & wx & wz & Hrun & _ & Hf & _ & Hy).
  { density_guard. }
  exists self', g'. split; [exact Hrun|].
  rewrite Hf. split; [reflexivity|]. split; [reflexivity|].
  apply Hy. reflexivity.
Defined.

(* ===================================================================== *)
(** * Controller limits                                                    *)
(* ===================================================================== *)

(** C7. Loading the model samples a controller limit and writes it into
    the robot's controller configuration exactly when the configuration
    declares the field: a declared field receives the uniform draw from
    its range, an undeclared field stays undeclared, every other entry is
    kept, one draw is consumed per declared field, and no error arises
    from an undeclared field. With neither field declared the
    configuration is the one the robot was built with. *)
Theorem controller_limits_iff_declared (self : BaseEnv) (g : RandomState) :
  density_draw_ok self →
  ∃ self' g' robot,
    _load_model self g = Ok (self', g')
    ∧ robots self' = Some robot
    ∧ (∀ k, k ≠ "max_translation" → k ≠ "max_rotation" →
         controller_config robot !! k = robot_configs self !! k)
    ∧ (robot_configs self !! "max_translation" = None →
         controller_config robot !! "max_translation" = None)
    ∧ (is_Some (robot_configs self !! "max_translation") →
         ∃ w, controller_config robot !! "max_translation" =
              Some (PyFloat (uniform_of (controller_max_translation_min self)
                                        (controller_max_translation_max self)
                                        w)))
    ∧ (robot_configs self !! "max_rotation" = None →
         controller_config robot !! "max_rotation" = None)
    ∧ (is_Some (robot_configs self !! "max_rotation") →
         ∃ w, controller_config robot !! "max_rotation" =
              Some (PyFloat (uniform_of (controller_max_rotation_min self)
                                        (controller_max_rotation_max self)
                                        w)))
    ∧ (robot_configs self !! "max_translation" = None →
       robot_configs self !! "max_rotation" = None →
         controller_config robot = robot_configs self)
    ∧ cursor g' =
        (cursor g + 11
         + bool_to_nat (use_random_occlusion self)
         + bool_to_nat (py_in "max_translation" (robot_configs self))
         + bool_to_nat (py_in "max_rotation" (robot_configs self)))%nat.
Proof.
  intros Hd. load_model_cases; eexists _, _, _;
    (split; [reflexivity|]); env_simpl;
    repeat match goal with
    | H : py_in _ _ = true |- _ => apply py_in_true in H; destruct H
    | H : py_in _ _ = false |- _ => apply py_in_false in H
    end;
    (split; [reflexivity|]); env_simpl;
    (split; [intros k ? ?; by rewrite ?lookup_insert_ne|]);
    repeat (split; [intros;
      repeat match goal with H : is_Some _ |- _ => destruct H end;
      simplify_map_eq; by eauto|]);
    cbn [bool_to_nat cursor advance]; lia.
Qed.

Lemma controller_limits_iff_declared_witness :
  ∃ self' g' robot,
    _load_model (default_env translation_only_config "none" false) halves
      = Ok (self', g')
    ∧ robots self' = Some robot
    ∧ controller_config robot !! "type" = Some (PyOther "OSC_POSE")
    ∧ controller_config robot !! "max_rotation" = None
    ∧ is_Some (controller_config robot !! "max_translation")
    ∧ cursor g' = 12%nat.
Proof.
  destruct (controller_limits_iff_declared
              (default_env translation_only_config "none" false) halves)
    as (self' & g' & robot & Hrun & Hrobot & Hkeep & _ & Ht & Hr & _ & _ & Hc).
  { density_guard. }
  exists self', g', robot.
  split; [exact Hrun|]. split; [exact Hrobot|].
  split; [rewrite Hkeep; [reflexivity | discriminate..]|].
  split; [apply Hr; reflexivity|].
  split; [destruct Ht as [w ->]; eexists; reflexivity|].
  rewrite Hc. reflexivity.
Defined.

(* ===================================================================== *)
(** * Box profile                                                          *)
(* ===================================================================== *)

(** C3, as the code has it. After a load, the sampled sizes
    [object_size_{x,y,z}_val] and the wall-distance range are those of the
    profile of the resolved occlusion type: ground gives sizes 0.15, 0.20,
    0.05 and range [0, 0]; side gives 0.06, 0.20, 0.06 and [0, 0]; any other
    type gives 0.06, 0.20, 0.06 and [0.05, 0.1]. The sizes are full
    dimensions: the box is built with half of each as its half-extents. No
    wall-distance value is sampled, only the range is installed. *)
Theorem box_profile_by_occlusion (self : BaseEnv) (g : RandomState) :
  density_draw_ok self →
  ∃ self' g' box,
    _load_model self g = Ok (self', g')
    ∧ cube self' = Some box
    ∧ size box = Array3 (object_size_x_val self' / Q2Qc 2)
                        (object_size_y_val self' / Q2Qc 2)
                        (object_size_z_val self' / Q2Qc 2)
    ∧ (occlusion_type self' = "ground" →
         object_size_x_val self' = Q2Qc 0.15
         ∧ object_size_y_val self' = Q2Qc 0.20
         ∧ object_size_z_val self' = Q2Qc 0.05
         ∧ object_to_wall_dist_min self' = Q2Qc 0
         ∧ object_to_wall_dist_max self' = Q2Qc 0
         ∧ size box = Array3 (Q2Qc 0.075) (Q2Qc 0.1) (Q2Qc 0.025))
    ∧ (occlusion_type self' = "side" →
         object_size_x_val self' = Q2Qc 0.06
         ∧ object_size_y_val self' = Q2Qc 0.20
         ∧ object_size_z_val self' = Q2Qc 0.06
         ∧ object_to_wall_dist_min self' = Q2Qc 0
         ∧ object_to_wall_dist_max self' = Q2Qc 0
         ∧ size box = Array3 (Q2Qc 0.03) (Q2Qc 0.1) (Q2Qc 0.03))
    ∧ (occlusion_type self' ≠ "ground" → occlusion_type self' ≠ "side" →
         object_size_x_val self' = Q2Qc 0.06
         ∧ object_size_y_val self' = Q2Qc 0.20
         ∧ object_size_z_val self' = Q2Qc 0.06
         ∧ object_to_wall_dist_min self' = Q2Qc 0.05
         ∧ object_to_wall_dist_max self' = Q2Qc 0.1
         ∧ size box = Array3 (Q2Qc 0.03) (Q2Qc 0.1) (Q2Qc 0.03)).
Proof.
  intros Hd. load_model_cases; eexists _, _, _;
    (split; [reflexivity|]); env_simpl;
    (split; [reflexivity|]); env_simpl;
    rewrite !uniform_of_degenerate;
    unfold box_size_x, box_size_y, box_size_z, wall_dist_min, wall_dist_max;
    (split; [reflexivity|]);
    repeat split; intros;
    repeat case_decide; try done; try congruence;
    f_equal; qc_closed.
Qed.

Lemma box_profile_by_occlusion_witness :
  ∃ self' g' box,
    _load_model (default_env ∅ "none" false) halves = Ok (self', g')
    ∧ cube self' = Some box
    ∧ object_size_x_val self' = Q2Qc 0.06
    ∧ object_to_wall_dist_min self' = Q2Qc 0.05
    ∧ object_to_wall_dist_max self' = Q2Qc 0.1
    ∧ size box = Array3 (Q2Qc 0.03) (Q2Qc 0.1) (Q2Qc 0.03).
Proof.
  destruct (box_profile_by_occlusion (default_env ∅ "none" false) halves)
    as (self' & g' & box & Hrun & Hcube & _ & _ & _ & Hnone).
  { density_guard. }
  exists self', g', box.
  split; [exact Hrun|]. split; [exact Hcube|].
  assert (Ht : occlusion_type self' = "none").
  { vm_compute in Hrun. by injection Hrun as <- _. }
  destruct Hnone as (Hx & _ & _ & Hmin & Hmax & Hsize);
    [rewrite Ht; discriminate.. |].
  by repeat split.
Defined.

(** C3, as stated, fails on the ground profile: the x half-extent of the
    box is 0.075, the half of the sampled size 0.15, not 0.15. *)
Lemma ground_half_extent_is_half_the_size :
  ∃ self' g' box,
    _load_model (default_env ∅ "ground" false) halves = Ok (self', g')
    ∧ occlusion_type self' = "ground"
    ∧ cube self' = Some box
    ∧ object_size_x_val self' = Q2Qc 0.15
    ∧ item0 (size box) = Q2Qc 0.075
    ∧ item0 (size box) ≠ Q2Qc 0.15.
Proof.
  eexists _, _, _. split; [vm_compute; reflexivity|].
  split; [reflexivity|]. split; [reflexivity|].
  split; [qc_closed|]. split; [qc_closed|].
  intros H. apply (f_equal this) in H. vm_compute in H. discriminate.
Qed.

(** ** Placement range *)

(** C1, as the code has it. After a load the sampler's x-range is
    [[xpos_max - object_to_wall_dist_max, xpos_max - object_to_wall_dist_min]]
    with [xpos_max] the half of the table's x size minus the box's x
    half-extent, itself the half of the sampled x size: the upper end uses
    the minimum of the wall-distance range, and no wall-distance value is
    sampled. With a table of x size 0.45 and the ground profile the range is
    [[0.15, 0.15]]. *)
Theorem placement_x_range_from_wall_dist_range
    (self : BaseEnv) (g : RandomState) :
  density_draw_ok self →
  ∃ self' g' box s,
    _load_model self g = Ok (self', g')
    ∧ cube self' = Some box
    ∧ placement_initializer self' = Some s
    ∧ item0 (size box) = object_size_x_val self' / Q2Qc 2
    ∧ table_full_size self' = table_full_size self
    ∧ x_range s =
        spec_placement_x_range (item0 (table_full_size self))
          (item0 (size box))
          (object_to_wall_dist_min self') (object_to_wall_dist_max self')
    ∧ y_range s =
        (object_initial_pose_y_min self, object_initial_pose_y_max self)
    ∧ (occlusion_type self' = "ground" →
       item0 (table_full_size self) = Q2Qc 0.45 →
       x_range s = (Q2Qc 0.15, Q2Qc 0.15)).
Proof.
  intros Hd. load_model_cases; eexists _, _, _, _;
    (split; [reflexivity|]); env_simpl;
    (split; [reflexivity|]); (split; [reflexivity|]); env_simpl;
    rewrite !uniform_of_degenerate;
    unfold spec_placement_x_range;
    repeat (split; [reflexivity|]);
    intros Ht ->; unfold box_size_x, wall_dist_min, wall_dist_max;
    (case_decide; [|done]); cbn [x_range]; f_equal; qc_closed.
Qed.

Lemma placement_x_range_from_wall_dist_range_witness :
  ∃ self' g' s,
    _load_model (default_env ∅ "ground" false) halves = Ok (self', g')
    ∧ placement_initializer self' = Some s
    ∧ x_range s = (Q2Qc 0.15, Q2Qc 0.15).
Proof.
  destruct (placement_x_range_from_wall_dist_range
              (default_env ∅ "ground" false) halves)
    as (self' & g' & box & s & Hrun & _ & Hs & _ & _ & _ & _ & Hground).
  { density_guard. }
  exists self', g', s.
  split; [exact Hrun|]. split; [exact Hs|].
  apply Hground; [|qc_closed].
  vm_compute in Hrun. by injection Hrun as <- _.
Defined.

(** C1, as stated, fails when the wall-distance range is not degenerate.
    For the default environment without occlusion the range is
    [[0.05, 0.1]]; under a generator whose every draw is one half, a value
    sampled from it is 0.075 and the stated range would end at 0.12, yet the
    sampler's range ends at 0.145, the upper end for the range minimum. *)
Lemma placement_x_range_ignores_sampled_clearance :
  ∃ self' g' box s,
    _load_model (default_env ∅ "none" false) halves = Ok (self', g')
    ∧ cube self' = Some box
    ∧ placement_initializer self' = Some s
    ∧ peek g' = (2 ^ 52)%N
    ∧ uniform_of (object_to_wall_dist_min self')
                 (object_to_wall_dist_max self') (peek g') = Q2Qc 0.075
    ∧ spec_placement_x_range (item0 (table_full_size self'))
        (item0 (size box))
        (uniform_of (object_to_wall_dist_min self')
                    (object_to_wall_dist_max self') (peek g'))
        (object_to_wall_dist_max self') = (Q2Qc 0.095, Q2Qc 0.12)
    ∧ x_range s = (Q2Qc 0.095, Q2Qc 0.145)
    ∧ x_range s ≠
        spec_placement_x_range (item0 (table_full_size self'))
          (item0 (size box))
          (uniform_of (object_to_wall_dist_min self')
                      (object_to_wall_dist_max self') (peek g'))
          (object_to_wall_dist_max self').
Proof.
  eexists _, _, _, _. split; [vm_compute; reflexivity|].
  split; [reflexivity|]. split; [reflexivity|]. split; [reflexivity|].
  split; [qc_closed|].
  split; [unfold spec_placement_x_range; f_equal; qc_closed|].
  split; [cbn [x_range]; f_equal; qc_closed|].
  intros H. apply (f_equal (λ p, this p.2)) in H.
  vm_compute in H. discriminate.
Qed.

(* ===================================================================== *)
(** * Occlusion type                                                       *)
(* ===================================================================== *)

(** Over any three consecutive raw words, [choice] returns each element of
    a three-element list exactly once: every element has one index in
    three. *)
Lemma choice_of_three_uniform {A} (d a b c : A) (w : N) :
  [choice_of d [a; b; c] w; choice_of d [a; b; c] (w + 1);
   choice_of d [a; b; c] (w + 2)] ≡ₚ [a; b; c].
Proof.
  unfold choice_of. cbn [length].
  change (N.of_nat 3) with 3%N.
  assert (H1 : ((w + 1) mod 3 = (w mod 3 + 1) mod 3)%N)
    by (by rewrite N.Div0.add_mod_idemp_l).
  assert (H2 : ((w + 2) mod 3 = (w mod 3 + 2) mod 3)%N)
    by (by rewrite N.Div0.add_mod_idemp_l).
  rewrite H1, H2. clear H1 H2.
  assert (Hlt : (w mod 3 < 3)%N) by (by apply N.mod_lt).
  generalize dependent (w mod 3)%N. intros r Hlt.
  assert (Hcase : (r = 0 ∨ r = 1 ∨ r = 2)%N) by lia.
  destruct Hcase as [-> | [-> | ->]]; cbn.
  - reflexivity.
  - by rewrite (Permutation_cons_append [b; c] a).
  - by rewrite <- (Permutation_cons_append [a; b] c).
Qed.

Lemma choice_of_three_elem {A} (d a b c : A) (w : N) :
  choice_of d [a; b; c] w ∈ [a; b; c].
Proof.
  pose proof (choice_of_three_uniform d a b c w) as Hperm.
  eapply elem_of_Permutation_proper; [symmetry; exact Hperm|].
  apply list_elem_of_here.
Qed.

(** C4. Without random occlusion a load leaves the occlusion type as
    requested, whatever string it is. With random occlusion the type is
    [choice] over exactly ground, side and none: it is one of the three,
    and each of the three is returned for one raw word in every three
    consecutive ones. *)
Theorem occlusion_type_resolution (self : BaseEnv) (g : RandomState) :
  density_draw_ok self →
  ∃ self' g',
    _load_model self g = Ok (self', g')
    ∧ (use_random_occlusion self = false →
         occlusion_type self' = occlusion_type self)
    ∧ (use_random_occlusion self = true →
         occlusion_type self' =
           choice_of "ground" occlusion_types (peek (advance g))
         ∧ occlusion_type self' ∈ occlusion_types)
    ∧ (∀ w, [choice_of "ground" occlusion_types w;
             choice_of "ground" occlusion_types (w + 1);
             choice_of "ground" occlusion_types (w + 2)]
            ≡ₚ occlusion_types).
Proof.
  intros Hd.
  assert (Hperm := choice_of_three_uniform "ground" "ground" "side" "none").
  load_model_cases; eexists _, _; (split; [reflexivity|]); env_simpl;
    (split; [done|]); (split; [|exact Hperm]); try done;
    intros _; (split; [reflexivity|]); apply choice_of_three_elem.
Qed.

Lemma occlusion_type_resolution_witness :
  ∃ self' g',
    _load_model (default_env ∅ "side" false) halves = Ok (self', g')
    ∧ occlusion_type self' = "side".
Proof.
  destruct (occlusion_type_resolution (default_env ∅ "side" false) halves)
    as (self' & g' & Hrun & Hfixed & _).
  { density_guard. }
  exists self', g'. split; [exact Hrun|]. by rewrite Hfixed.
Defined.

(* ===================================================================== *)
(** * Sampled values and their ranges                                      *)
(* ===================================================================== *)

(** Closes the side goals on a declared or undeclared controller field. *)
Ltac controller_field :=
  repeat match goal with
  | H : py_in _ _ = true |- _ => apply py_in_true in H
  | H : py_in _ _ = false |- _ => apply py_in_false in H
  | H : is_Some _ |- _ => destruct H
  end;
  simplify_map_eq.

Lemma py_int_of_Z_succ (z : Z) : py_int (Qc_of_Z z + 1) = (z + 1)%Z.
Proof. by rewrite <- Z2Qc_inj_1, <- Z2Qc_inj_add, py_int_of_Z. Qed.

(** On integer bounds within [int64] the density draw is admitted exactly
    when the bounds are in order. *)
Lemma density_draw_ok_integral (self : BaseEnv) (a b : Z) :
  object_density_min self = Qc_of_Z a →
  object_density_max self = Qc_of_Z b →
  (int64_min ≤ a)%Z → (b ≤ int64_max)%Z →
  density_draw_ok self ↔ (a ≤ b)%Z.
Proof.
  intros Ha Hb Hlo Hhi. unfold density_draw_ok, randint_admits.
  rewrite Ha, Hb, py_int_of_Z, py_int_of_Z_succ. lia.
Qed.







(* ===================================================================== *)
(** * Inverted ranges                                                      *)
(* ===================================================================== *)

(** C2, as stated, fails: the constructor and the assignment accept a
    minimum above the maximum, and the load afterwards raises nothing and
    samples the quantity, here to 0.65. *)
Lemma inverted_range_is_sampled :
  table_friction_max inverted_friction_env
    < table_friction_min inverted_friction_env
  ∧ ∃ self' g',
      _load_model inverted_friction_env halves = Ok (self', g')
      ∧ table_friction_val self' = Q2Qc 0.65.
Proof.
  split; [reflexivity|].
  eexists _, _. split; [vm_compute; reflexivity|]. qc_closed.
Qed.

(** An inverted density range of integers is met by the draw itself. *)
Example inverted_density_raises_in_the_draw :
  _load_model inverted_density_env halves = Raise (ValueError "low >= high").
Proof. vm_compute. reflexivity. Qed.

(** An inverted density range whose truncated bounds are in order is
    sampled: the bounds 85.9 and 85.2 give the draw over 85 alone. *)
Example inverted_density_can_be_sampled :
  object_density_max truncated_density_env
    < object_density_min truncated_density_env
  ∧ ∃ self' g',
      _load_model truncated_density_env halves = Ok (self', g')
      ∧ object_density_val self' = Q2Qc 85.
Proof.
  split; [reflexivity|].
  eexists _, _. split; [vm_compute; reflexivity|]. qc_closed.
Qed.

(** C2, as the code has it. No range is checked when the environment is
    built or when a bound is assigned. A load fails only in the density
    draw, with a [ValueError] of [randint], and exactly when [randint] does
    not admit the truncated density bounds; for integer bounds within
    [int64] that is exactly when the maximum is below the minimum. Every
    other inverted range raises nothing. The table friction, the table
    offsets, the gripper friction and each declared controller limit of a
    range whose maximum is below its minimum are sampled and lie above the
    maximum and at most at the minimum. The size ranges are installed
    anew by every load as single points, and the wall-distance range in
    order, whatever was assigned before. *)
Theorem inverted_ranges_not_validated (self : BaseEnv) (g : RandomState) :
  is_ok (_load_model self g) = bool_decide (density_draw_ok self)
  ∧ (¬ density_draw_ok self →
       ∃ msg, _load_model self g = Raise (ValueError msg))
  ∧ (∀ a b : Z,
       object_density_min self = Qc_of_Z a →
       object_density_max self = Qc_of_Z b →
       (int64_min ≤ a)%Z → (b ≤ int64_max)%Z →
       density_draw_ok self ↔ (a ≤ b)%Z)
  ∧ (density_draw_ok self →
     ∃ self' g' robot,
       _load_model self g = Ok (self', g')
       ∧ robots self' = Some robot
       ∧ (table_friction_max self < table_friction_min self →
            table_friction_max self < table_friction_val self'
            ∧ table_friction_val self' ≤ table_friction_min self)
       ∧ (table_offset_x_max self < table_offset_x_min self →
            table_offset_x_max self < item0 (table_offset self')
            ∧ item0 (table_offset self') ≤ table_offset_x_min self)
       ∧ (table_offset_z_max self < table_offset_z_min self →
            table_offset_z_max self < item2 (table_offset self')
            ∧ item2 (table_offset self') ≤ table_offset_z_min self)
       ∧ (gripper_friction_max self < gripper_friction_min self →
            gripper_friction_max self < gripper_friction_val self'
            ∧ gripper_friction_val self' ≤ gripper_friction_min self)
       ∧ (controller_max_translation_max self
            < controller_max_translation_min self →
          is_Some (robot_configs self !! "max_translation") →
            ∃ q, controller_config robot !! "max_translation"
                   = Some (PyFloat q)
                 ∧ controller_max_translation_max self < q
                 ∧ q ≤ controller_max_translation_min self)
       ∧ (controller_max_rotation_max self
            < controller_max_rotation_min self →
          is_Some (robot_configs self !! "max_rotation") →
            ∃ q, controller_config robot !! "max_rotation"
                   = Some (PyFloat q)
                 ∧ controller_max_rotation_max self < q
                 ∧ q ≤ controller_max_rotation_min self)
       ∧ object_size_x_min self' = object_size_x_max self'
       ∧ object_size_y_min self' = object_size_y_max self'
       ∧ object_size_z_min self' = object_size_z_max self'
       ∧ object_to_wall_dist_min self' ≤ object_to_wall_dist_max self').
Proof.
  split; [apply _load_model_is_ok|]. split; [|split].
  - intros Hinv. load_model_raises; by eexists.
  - apply density_draw_ok_integral.
  - intros Hd.
    assert (Hwall : ∀ t, wall_dist_min t ≤ wall_dist_max t).
    { intros t. unfold wall_dist_min, wall_dist_max.
      repeat case_decide; by vm_compute. }
    load_model_cases; eexists _, _, _;
      (split; [reflexivity|]); env_simpl;
      (split; [reflexivity|]); env_simpl;
      do 4 (split; [by apply uniform_of_inverted|]);
      do 2 (split; [intros Hlt ?; controller_field;
              [ eexists; (split; [done|]); by apply uniform_of_inverted .. ]
            |]);
      do 3 (split; [reflexivity|]); apply Hwall.
Qed.

Lemma inverted_ranges_not_validated_witness :
  ∃ self' g',
    _load_model inverted_friction_env halves = Ok (self', g')
    ∧ Q2Qc 0.3 < table_friction_val self'
    ∧ table_friction_val self' ≤ Q2Qc 1.
Proof.
  destruct (inverted_ranges_not_validated inverted_friction_env halves)
    as (_ & _ & _ & Hok).
  destruct Hok as (self' & g' & robot & Hrun & _ & Hfric & _);
    [density_guard|].
  exists self', g'. split; [exact Hrun|].
  apply Hfric. reflexivity.
Defined.

(* ===================================================================== *)
(** * Further properties of the loaders                                    *)
(* ===================================================================== *)

(** Two environments with the same attributes are equal. *)
Lemma BaseEnv_ext (a b : BaseEnv) : BaseEnv_eta a = BaseEnv_eta b → a = b.
Proof. by destruct a, b. Qed.

(** Compares two environments attribute by attribute. *)
Ltac env_ext := apply BaseEnv_ext; unfold BaseEnv_eta; env_simpl.

(** ** [init_box_size] *)

(** X1. [init_box_size] reads nothing but the occlusion type: whatever the
    eleven size and wall-distance attributes held before, they are
    replaced, so that a size or wall-distance range assigned from outside
    does not survive the call; calling it twice is calling it once. *)
Theorem init_box_size_overrides (self : BaseEnv) (v : Qc) :
  init_box_size (init_box_size self) = init_box_size self
  ∧ init_box_size (set_object_size_x_min v self) = init_box_size self
  ∧ init_box_size (set_object_size_x_max v self) = init_box_size self
  ∧ init_box_size (set_object_size_x_val v self) = init_box_size self
  ∧ init_box_size (set_object_size_y_min v self) = init_box_size self
  ∧ init_box_size (set_object_size_y_max v self) = init_box_size self
  ∧ init_box_size (set_object_size_y_val v self) = init_box_size self
  ∧ init_box_size (set_object_size_z_min v self) = init_box_size self
  ∧ init_box_size (set_object_size_z_max v self) = init_box_size self
  ∧ init_box_size (set_object_size_z_val v self) = init_box_size self
  ∧ init_box_size (set_object_to_wall_dist_min v self) = init_box_size self
  ∧ init_box_size (set_object_to_wall_dist_max v self) = init_box_size self.
Proof.
  rewrite !init_box_size_unfold. env_simpl.
  repeat (apply conj; [env_ext; reflexivity|]). env_ext; reflexivity.
Qed.

(** X2. In every profile the installed ranges are single points for the
    three sizes, the sizes are strictly positive and the wall-distance
    range is in order and not negative. *)
Theorem init_box_size_ranges_well_formed (self : BaseEnv) :
  let self' := init_box_size self in
  object_size_x_min self' = object_size_x_val self'
  ∧ object_size_x_max self' = object_size_x_val self'
  ∧ object_size_y_min self' = object_size_y_val self'
  ∧ object_size_y_max self' = object_size_y_val self'
  ∧ object_size_z_min self' = object_size_z_val self'
  ∧ object_size_z_max self' = object_size_z_val self'
  ∧ 0 < object_size_x_val self'
  ∧ 0 < object_size_y_val self'
  ∧ 0 < object_size_z_val self'
  ∧ 0 ≤ object_to_wall_dist_min self'
  ∧ object_to_wall_dist_min self' ≤ object_to_wall_dist_max self'.
Proof.
  cbv zeta. rewrite !init_box_size_unfold. env_simpl.
  unfold box_size_x, box_size_y, box_size_z, wall_dist_min, wall_dist_max.
  repeat split; repeat case_decide;
    first [reflexivity | by vm_compute].
Qed.

(** ** What a load keeps *)

(** X3. A load changes no configured bound other than those of the sizes
    and of the wall distance: the table size, the lateral pose bounds, the
    ranges of table offset, table friction, gripper friction, density and
    controller limits, the random-occlusion switch and the controller
    configuration the robots are built from are the ones held before. *)
Theorem load_keeps_configuration (self : BaseEnv) (g : RandomState) :
  density_draw_ok self →
  ∃ self' g',
    _load_model self g = Ok (self', g')
    ∧ table_full_size self' = table_full_size self
    ∧ object_initial_pose_y_min self' = object_initial_pose_y_min self
    ∧ object_initial_pose_y_max self' = object_initial_pose_y_max self
    ∧ table_offset_x_min self' = table_offset_x_min self
    ∧ table_offset_x_max self' = table_offset_x_max self
    ∧ table_offset_z_min self' = table_offset_z_min self
    ∧ table_offset_z_max self' = table_offset_z_max self
    ∧ table_friction_min self' = table_friction_min self
    ∧ table_friction_max self' = table_friction_max self
    ∧ gripper_friction_min self' = gripper_friction_min self
    ∧ gripper_friction_max self' = gripper_friction_max self
    ∧ object_density_min self' = object_density_min self
    ∧ object_density_max self' = object_density_max self
    ∧ controller_max_translation_min self'
        = controller_max_translation_min self
    ∧ controller_max_translation_max self'
        = controller_max_translation_max self
    ∧ controller_max_rotation_min self' = controller_max_rotation_min self
    ∧ controller_max_rotation_max self' = controller_max_rotation_max self
    ∧ use_random_occlusion self' = use_random_occlusion self
    ∧ robot_configs self' = robot_configs self.
Proof.
  intros Hd. load_model_cases; eexists _, _;
    (split; [reflexivity|]); env_simpl;
    repeat (apply conj; [first [reflexivity | assumption]|]); reflexivity.
Qed.

Lemma load_keeps_configuration_witness :
  ∃ self' g',
    _load_model inverted_friction_env halves = Ok (self', g')
    ∧ table_friction_min self' = Q2Qc 1
    ∧ table_friction_max self' = Q2Qc 0.3.
Proof.
  destruct (load_keeps_configuration inverted_friction_env halves)
    as (self' & g' & Hrun & _ & _ & _ & _ & _ & _ & _ & Hmin & Hmax & _).
  { density_guard. }
  exists self', g'. split; [exact Hrun|].
  rewrite Hmin, Hmax. split; reflexivity.
Defined.

(** ** The scene handed to the simulation *)

(** X4. The box of a load is named "cube", carries the sampled density,
    and its material is the red wood exactly when the resolved occlusion
    type is ground, the blue wood otherwise. *)
Theorem box_material_by_occlusion (self : BaseEnv) (g : RandomState) :
  density_draw_ok self →
  ∃ self' g' box,
    _load_model self g = Ok (self', g')
    ∧ cube self' = Some box
    ∧ box_name box = "cube"
    ∧ density box = object_density_val self'
    ∧ (occlusion_type self' = "ground" →
         material box = {| texture := "WoodRed"; tex_name := "redwood";
                           mat_name := "redwood_mat" |})
    ∧ (occlusion_type self' ≠ "ground" →
         material box = {| texture := "WoodBlue"; tex_name := "bluewood";
                           mat_name := "bluewood_mat" |}).
Proof.
  intros Hd. load_model_cases; eexists _, _, _;
    (split; [reflexivity|]); env_simpl;
    (split; [reflexivity|]); env_simpl;
    repeat (apply conj; [reflexivity|]);
    split; intros Ht; case_decide; done.
Qed.

Lemma box_material_by_occlusion_witness :
  ∃ self' g' box,
    _load_model (default_env ∅ "side" false) halves = Ok (self', g')
    ∧ cube self' = Some box
    ∧ texture (material box) = "WoodBlue".
Proof.
  destruct (box_material_by_occlusion (default_env ∅ "side" false) halves)
    as (self' & g' & box & Hrun & Hcube & _ & _ & _ & Hblue).
  { density_guard. }
  exists self', g', box. split; [exact Hrun|]. split; [exact Hcube|].
  rewrite Hblue; [reflexivity|].
  vm_compute in Hrun. injection Hrun as <- _. discriminate.
Defined.

(** X5. The parts of a loaded scene agree with one another: the placement
    sampler, the task and the environment hold the same box, the task holds
    the environment's robot, the arena is built from the table offset and
    friction just sampled and from the unchanged table size, with no hidden
    wall, the sampler's reference position is that table offset with a zero
    z offset, and the robot keeps the friction vector it was loaded with
    after the controller limits have been written. *)
Theorem loaded_scene_is_consistent (self : BaseEnv) (g : RandomState) :
  density_draw_ok self →
  ∃ self' g' box s task robot,
    _load_model self g = Ok (self', g')
    ∧ cube self' = Some box
    ∧ placement_initializer self' = Some s
    ∧ model self' = Some task
    ∧ robots self' = Some robot
    ∧ mujoco_objects s = box
    ∧ task_objects task = box
    ∧ mujoco_robots task = robot
    ∧ bin_pos (mujoco_arena task) = table_offset self'
    ∧ bin_friction (mujoco_arena task) = table_friction self'
    ∧ bin_full_size (mujoco_arena task) = table_full_size self
    ∧ hidden_walls (mujoco_arena task) = ""
    ∧ reference_pos s = table_offset self'
    ∧ z_offset s = Q2Qc 0
    ∧ sampler_name s = "ObjectSampler"
    ∧ gripper_friction robot =
        Array3 (gripper_friction_val self') (Q2Qc 0.015) (Q2Qc 0.0003).
Proof.
  intros Hd. load_model_cases; eexists _, _, _, _, _, _;
    (split; [reflexivity|]); env_simpl;
    do 4 (split; [reflexivity|]); env_simpl;
    repeat (apply conj; [reflexivity|]); reflexivity.
Qed.

Lemma loaded_scene_is_consistent_witness :
  ∃ self' g' s task,
    _load_model (default_env translation_only_config "none" true) halves
      = Ok (self', g')
    ∧ placement_initializer self' = Some s
    ∧ model self' = Some task
    ∧ mujoco_objects s = task_objects task
    ∧ reference_pos s = bin_pos (mujoco_arena task).
Proof.
  destruct (loaded_scene_is_consistent
              (default_env translation_only_config "none" true) halves)
    as (self' & g' & box & s & task & robot & Hrun & _ & Hs & Htask & _
        & Hsb & Htb & _ & Hpos & _ & _ & _ & Hrefpos & _).
  { density_guard. }
  exists self', g', s, task. split; [exact Hrun|].
  split; [exact Hs|]. split; [exact Htask|].
  rewrite Hsb, Htb, Hpos, Hrefpos. split; reflexivity.
Defined.

(** ** The placement range *)

Lemma Qc_sub_le_mono_l (x a b : Qc) : b ≤ a → x - a ≤ x - b.
Proof.
  intros H. apply Qcle_minus_iff.
  replace (x - b + - (x - a)) with (a + - b) by ring.
  apply Qcle_minus_iff in H. exact H.
Qed.

Lemma Qc_upper_end (x h d : Qc) : 0 ≤ d → x - h - d + h ≤ x.
Proof.
  intros H. apply Qcle_minus_iff.
  replace (x + - (x - h - d + h)) with d by ring. exact H.
Qed.

(** X6. The x-range of the sampler is never inverted, its width is the
    width of the wall-distance range (zero for ground and side, 0.05
    otherwise), and a box centred at its upper end stays within the half
    of the table's x size. *)
Theorem placement_x_range_well_ordered (self : BaseEnv) (g : RandomState) :
  density_draw_ok self →
  ∃ self' g' box s,
    _load_model self g = Ok (self', g')
    ∧ cube self' = Some box
    ∧ placement_initializer self' = Some s
    ∧ (x_range s).1 ≤ (x_range s).2
    ∧ (x_range s).2 - (x_range s).1 =
        object_to_wall_dist_max self' - object_to_wall_dist_min self'
    ∧ (x_range s).2 + item0 (size box)
        ≤ item0 (table_full_size self) / Q2Qc 2
    ∧ (occlusion_type self' = "ground" ∨ occlusion_type self' = "side" →
         (x_range s).1 = (x_range s).2)
    ∧ (occlusion_type self' ≠ "ground" → occlusion_type self' ≠ "side" →
         (x_range s).2 - (x_range s).1 = Q2Qc 0.05).
Proof.
  intros Hd.
  assert (Hwall : ∀ t, 0 ≤ wall_dist_min t ∧ wall_dist_min t ≤ wall_dist_max t).
  { intros t. unfold wall_dist_min, wall_dist_max.
    repeat case_decide; by vm_compute. }
  load_model_cases; eexists _, _, _, _;
    (split; [reflexivity|]); env_simpl;
    do 2 (split; [reflexivity|]); env_simpl;
    rewrite !uniform_of_degenerate; cbn [x_range fst snd];
    match goal with |- context [wall_dist_min ?t] =>
      destruct (Hwall t) as [Hnn Hord] end;
    (split; [by apply Qc_sub_le_mono_l|]);
    (split; [ring|]);
    (split; [by apply Qc_upper_end|]);
    (split; [intros [Ht | Ht]; rewrite Ht; reflexivity|]);
    intros Hng Hns;
    match goal with |- ?x - ?h - ?a - (?x - ?h - ?b) = _ =>
      replace (x - h - a - (x - h - b)) with (b - a) by ring end;
    unfold wall_dist_min, wall_dist_max;
    repeat case_decide; try done; qc_closed.
Qed.

Lemma placement_x_range_well_ordered_witness :
  ∃ self' g' s,
    _load_model (default_env ∅ "none" false) halves = Ok (self', g')
    ∧ placement_initializer self' = Some s
    ∧ (x_range s).1 ≤ (x_range s).2
    ∧ (x_range s).2 - (x_range s).1 = Q2Qc 0.05.
Proof.
  destruct (placement_x_range_well_ordered (default_env ∅ "none" false)
              halves)
    as (self' & g' & box & s & Hrun & _ & Hs & Hord & _ & _ & _ & Hwidth).
  { density_guard. }
  exists self', g', s. split; [exact Hrun|]. split; [exact Hs|].
  split; [exact Hord|].
  assert (Ht : occlusion_type self' = "none").
  { vm_compute in Hrun. by injection Hrun as <- _. }
  apply Hwidth; rewrite Ht; discriminate.
Defined.

(** ** Fixed ranges *)

(** Replaces the draws from single-point ranges by their value. *)
Ltac single_points :=
  repeat match goal with
  | H : ?a = ?b |- context [uniform_of ?a ?b _] => rewrite <- H
  | H : ?a = ?b |- context [randint_of (py_int ?a) (py_int (?b + 1)) _] =>
      rewrite <- H
  end;
  repeat match goal with
  | H : randint_admits ?m (?m + 1)
    |- context [randint_of (py_int ?m) (py_int (?m + 1)) ?w] =>
      rewrite (randint_of_point m w H)
  end;
  rewrite ?uniform_of_degenerate.

(** Loads from single-point ranges agree on every generator. *)
Lemma load_with_single_point_ranges (self : BaseEnv) (g1 g2 : RandomState) :
  single_point_ranges self →
  density_draw_ok self →
  use_random_occlusion self = false →
  ∃ self' g1' g2',
    _load_model self g1 = Ok (self', g1')
    ∧ _load_model self g2 = Ok (self', g2').
Proof.
  intros (Hf & Hx & Hz & Hg & Hd & Ht & Hr) Hok Hrandom.
  assert (Hpt : randint_admits (object_density_min self)
                  (object_density_min self + 1))
    by (unfold density_draw_ok in Hok; by rewrite <- Hd in Hok).
  load_model_cases; try discriminate;
    eexists _, _, _; (split; [reflexivity|]);
    single_points; env_simpl; reflexivity.
Qed.





(** The ranges [__init__] installs are single points, whatever its
    arguments, and its density bounds are admitted. *)
Lemma init_single_point_ranges
    (cc : gmap string pyval) (t : string) (r : bool)
    (tfs tf tos : ndarray3) (p : option UniformRandomSampler) :
  single_point_ranges (__init__ cc t r tfs tf tos p)
  ∧ density_draw_ok (__init__ cc t r tfs tf tos p).
Proof.
  unfold __init__, single_point_ranges, density_draw_ok.
  rewrite init_box_size_unfold. env_simpl.
  repeat (apply conj); first [reflexivity | density_guard].
Qed.

(** X11. An environment as [__init__] builds it, with random occlusion
    off, is not randomised at all: whatever the other arguments and the
    generator states, its loads succeed and give the same environment. *)
Theorem fresh_environment_is_not_randomised
    (cc : gmap string pyval) (t : string)
    (tfs tf tos : ndarray3) (p : option UniformRandomSampler)
    (g1 g2 : RandomState) :
  ∃ self' g1' g2',
    _load_model (__init__ cc t false tfs tf tos p) g1 = Ok (self', g1')
    ∧ _load_model (__init__ cc t false tfs tf tos p) g2 = Ok (self', g2').
Proof.
  apply load_with_single_point_ranges.
  - apply init_single_point_ranges.
  - apply init_single_point_ranges.
  - unfold __init__. rewrite init_box_size_unfold. reflexivity.
Qed.

(* ===================================================================== *)
(** * Observables                                                          *)
(* ===================================================================== *)

Lemma od_get_setitem_eq {V} (k : string) (v : V) (d : list (string * V)) :
  od_get k (od_setitem k v d) = Some v.
Proof.
  induction d as [|[k' v'] d IH]; cbn; repeat case_decide; try done.
  all: cbn; by case_decide.
Qed.

Lemma od_get_setitem_ne {V} (k k' : string) (v : V) (d : list (string * V)) :
  k ≠ k' → od_get k' (od_setitem k v d) = od_get k' d.
Proof.
  intros Hne. induction d as [|[k0 v0] d IH]; cbn;
    repeat (case_decide; cbn); subst; try done.
Qed.

Lemma od_setitem_keys {V} (k : string) (v : V) (d : list (string * V)) :
  (od_setitem k v d).*1 = if decide (k ∈ d.*1) then d.*1 else d.*1 ++ [k].
Proof.
  induction d as [|[k0 v0] d IH]; cbn.
  - rewrite decide_False; [done | apply not_elem_of_nil].
  - destruct (decide (k = k0)) as [->|Hne]; cbn.
    + rewrite decide_True; [done | apply list_elem_of_here].
    + rewrite IH. destruct (decide (k ∈ d.*1)) as [Hin|Hnin].
      * rewrite decide_True; [done | by apply list_elem_of_further].
      * rewrite decide_False; [done|].
        intros [?|?]%elem_of_cons; done.
Qed.

(** X9. With object observations switched off the observables of the
    parent class are returned as they are. With them switched on the
    result maps "cube_pos" and "cube_quat" to observables of those names,
    sampled at the control frequency, whose sensors have the object
    modality and read the position and the orientation of the cube's body;
    every other name keeps the observable it had, and the names of the
    parent class keep their order, the new names being appended unless
    already there. *)
Theorem setup_observables_adds_cube_sensors
    (self : BaseEnvSim) (observables : list (string * Observable)) :
  (use_object_obs self = false →
     _setup_observables self observables = observables)
  ∧ (use_object_obs self = true →
       let result := _setup_observables self observables in
       od_get "cube_pos" result =
         Some {| obs_name := "cube_pos"; obs_sensor := cube_pos;
                 sampling_rate := control_freq self |}
       ∧ od_get "cube_quat" result =
           Some {| obs_name := "cube_quat"; obs_sensor := cube_quat;
                   sampling_rate := control_freq self |}
       ∧ (∀ k, k ≠ "cube_pos" → k ≠ "cube_quat" →
            od_get k result = od_get k observables)
       ∧ observables.*1 `prefix_of` result.*1
       ∧ (length observables ≤ length result ≤ length observables + 2)%nat
       ∧ sensor_modality cube_pos = Some "object"
       ∧ sensor_modality cube_quat = Some "object"
       ∧ read_sensor self cube_pos =
           Some (body_xpos (sim_data self) (cube_body_id self))
       ∧ read_sensor self cube_quat =
           Some (body_xquat (sim_data self) (cube_body_id self))).
Proof.
  unfold _setup_observables. split; intros ->; [done|]. cbn.
  split; [by rewrite od_get_setitem_ne, od_get_setitem_eq|].
  split; [by rewrite od_get_setitem_eq|].
  split; [intros k ? ?; by rewrite !od_get_setitem_ne|].
  assert (Hkeys : ∀ k (v : Observable) d,
            d.*1 `prefix_of` (od_setitem k v d).*1
            ∧ (length d ≤ length (od_setitem k v d) ≤ length d + 1)%nat).
  { intros k v d. split.
    - rewrite od_setitem_keys. case_decide; [done | by apply prefix_app_r].
    - rewrite <- !(length_fmap fst), od_setitem_keys.
      case_decide; rewrite ?length_app; cbn; lia. }
  split; [|split; [|done]].
  - etransitivity; apply Hkeys.
  - match goal with |- context [od_setitem "cube_quat" ?v (od_setitem ?k ?w _)] =>
      pose proof (proj2 (Hkeys k w observables));
      pose proof (proj2 (Hkeys "cube_quat" v (od_setitem k w observables)))
    end. lia.
Qed.

Lemma setup_observables_adds_cube_sensors_witness :
  od_get "cube_pos" (_setup_observables demo_sim demo_observables) =
    Some {| obs_name := "cube_pos"; obs_sensor := cube_pos;
            sampling_rate := Q2Qc 20 |}
  ∧ od_get "robot0_joint_pos" (_setup_observables demo_sim demo_observables)
    = od_get "robot0_joint_pos" demo_observables.
Proof.
  destruct (setup_observables_adds_cube_sensors demo_sim demo_observables)
    as [_ Hon].
  destruct (Hon eq_refl) as (Hpos & _ & Hother & _).
  split; [exact Hpos|]. apply Hother; discriminate.
Defined.

(* ===================================================================== *)
(** * Reset                                                                *)
(* ===================================================================== *)

(** The loop of [_reset_internal], started from any data. *)
Lemma reset_loop_spec
    (pl : list (list Qc * list Qc * MujocoObject)) (d : MjData) :
  Forall (λ p, is_Some (joints_0 p.2)) pl →
  NoDup ((λ p, joints_0 p.2) <$> pl) →
  ∃ d',
    foldl (λ data '(obj_pos, obj_quat, obj),
             d ← data;
             j ← joints_0 obj;
             Some (set_joint_qpos j (obj_pos ++ obj_quat) d))
          (Some d) pl = Some d'
    ∧ (∀ obj_pos obj_quat obj j,
         (obj_pos, obj_quat, obj) ∈ pl → joints_0 obj = Some j →
         qpos d' !! j = Some (obj_pos ++ obj_quat))
    ∧ (∀ j, Some j ∉ (λ p, joints_0 p.2) <$> pl →
         qpos d' !! j = qpos d !! j)
    ∧ body_xpos d' = body_xpos d
    ∧ body_xquat d' = body_xquat d.
Proof.
  revert d. induction pl as [|[[pos quat] obj] pl IH]; intros d Hj Hnd.
  - exists d. cbn. repeat split; try done. intros ???? Hin. by inversion Hin.
  - apply Forall_cons in Hj as [[j Hjo] Hj].
    change (joints_0 obj = Some j) in Hjo.
    apply NoDup_cons in Hnd as [Hfresh Hnd].
    change (joints_0 obj ∉ (λ p, joints_0 p.2) <$> pl) in Hfresh.
    rewrite Hjo in Hfresh.
    destruct (IH (set_joint_qpos j (pos ++ quat) d) Hj Hnd)
      as (d' & Hrun & Hplaced & Hother & Hxpos & Hxquat).
    exists d'. cbn. rewrite Hjo. cbn. split; [exact Hrun|].
    split; [|split; [|split; [by rewrite Hxpos | by rewrite Hxquat]]].
    + intros pos' quat' obj' j' [Heq|Hin]%elem_of_cons Hj'.
      * injection Heq as -> -> ->. rewrite Hjo in Hj'. injection Hj' as <-.
        rewrite (Hother j Hfresh). cbn. by rewrite lookup_insert_eq.
      * by eapply Hplaced.
    + intros j' Hj'.
      apply not_elem_of_cons in Hj' as [Hne Hj'].
      rewrite (Hother j' Hj'). cbn. rewrite lookup_insert_ne; [done|].
      congruence.
Qed.

(** X10. With [deterministic_reset] set the reset writes no joint. Without
    it, when every placed object has a joint and the first joints are
    pairwise distinct, the reset succeeds, the first joint of every placed
    object holds the object's position followed by its orientation, every
    other joint keeps its position, and the body data is untouched. An
    object without joints stops the reset with the index error. *)
Theorem reset_writes_the_placements
    (self : BaseEnvSim)
    (object_placements : list (list Qc * list Qc * MujocoObject)) :
  (deterministic_reset self = true →
     _reset_internal self object_placements = Some (sim_data self))
  ∧ (deterministic_reset self = false →
     Forall (λ p, is_Some (joints_0 p.2)) object_placements →
     NoDup ((λ p, joints_0 p.2) <$> object_placements) →
     ∃ d,
       _reset_internal self object_placements = Some d
       ∧ (∀ obj_pos obj_quat obj j,
            (obj_pos, obj_quat, obj) ∈ object_placements →
            joints_0 obj = Some j →
            qpos d !! j = Some (obj_pos ++ obj_quat))
       ∧ (∀ j, Some j ∉ (λ p, joints_0 p.2) <$> object_placements →
            qpos d !! j = qpos (sim_data self) !! j)
       ∧ body_xpos d = body_xpos (sim_data self)
       ∧ body_xquat d = body_xquat (sim_data self))
  ∧ (deterministic_reset self = false →
     Exists (λ p, joints_0 p.2 = None) object_placements →
     _reset_internal self object_placements = None).
Proof.
  unfold _reset_internal. split; [by intros ->|].
  split; intros ->; cbn.
  - apply reset_loop_spec.
  - generalize (Some (sim_data self)).
    induction object_placements as [|[[pos quat] obj] pl IH];
      intros data Hex; [by inversion Hex|].
    apply Exists_cons in Hex as [Hnone|Hex]; cbn.
    + cbn in Hnone. rewrite Hnone.
      replace (data ≫= λ _, None ≫= _) with (@None MjData)
        by (by destruct data).
      clear. induction pl as [|[[??]?] pl IH]; [done|]. cbn. exact IH.
    + by apply IH.
Qed.

Lemma reset_writes_the_placements_witness :
  ∃ d,
    _reset_internal demo_sim demo_placements = Some d
    ∧ qpos d !! "cube_joint0" =
        Some [Q2Qc 0.5; Q2Qc 0; Q2Qc 0.1; Q2Qc 1; Q2Qc 0; Q2Qc 0; Q2Qc 0].
Proof.
  destruct (reset_writes_the_placements demo_sim demo_placements)
    as (_ & Hplace & _).
  destruct Hplace as (d & Hrun & Hplaced & _).
  - reflexivity.
  - repeat constructor. by eexists.
  - apply NoDup_singleton.
  - exists d. split; [exact Hrun|].
    exact (Hplaced _ _ _ "cube_joint0" (list_elem_of_here _ []) eq_refl).
Defined.
